(** * gqlauth: policy directives and mutation handlers

    A shallow embedding of [gqlauth/core/directives.py] (the four
    [BaseAuthDirective] subclasses and their [resolve_permission] methods),
    followed by models of the token store and of the RevokeToken and
    SwapEmails handlers, and the properties established about them. *)

From Stdlib Require Import String Ascii List Bool.
From stdpp Require Import base option gmap strings list fin_maps.

Local Open Scope string_scope.
Local Open Scope list_scope.

(** ** Python values and exceptions *)

(** The dynamically typed values the directives read from a user object:
    a [str] or [None]. *)
Inductive pyval : Type :=
| PyNone
| PyStr (s : string).

Global Instance pyval_eq_dec : EqDecision pyval.
Proof. solve_decision. Defined.

(** Python truth value: [None] and the empty string are falsy. *)
Definition truthy (v : pyval) : bool :=
  match v with
  | PyNone => false
  | PyStr s => negb (String.eqb s "")
  end.

(** [str(v)], as an f-string replacement field formats its value. *)
Definition py_str (v : pyval) : string :=
  match v with
  | PyNone => "None"
  | PyStr s => s
  end.

(** Modelled from the spec: the class [TokenExpired] of
    [gqlauth.core.exceptions], whose declaration is missing; the decoder
    fails with Expired, distinct from InvalidToken, so [TokenExpired] is a
    class of its own and not an instance of [PyJWTError].

    The other constructors are the exception classes that reach the
    directives.  [PyJWTError] stands for an instance of [jwt.PyJWTError] or
    of any subclass of it, which is what the clause [except PyJWTError]
    catches. *)
Inductive pyexn : Type :=
| PyJWTError
| TokenExpired
| AttributeError (name : string)
| TypeError
| OtherError (name : string).

Global Instance pyexn_eq_dec : EqDecision pyexn.
Proof. solve_decision. Defined.

(** What a call does: return a value or raise. *)
Inductive outcome (A : Type) : Type :=
| Returns (a : A)
| Raises (e : pyexn).

Arguments Returns {A} a.
Arguments Raises {A} e.

Global Instance outcome_ret : MRet outcome := fun A a => Returns a.
Global Instance outcome_bind : MBind outcome := fun A B f m =>
  match m with
  | Returns a => f a
  | Raises e => Raises e
  end.

(** ** Denials *)

(** Modelled from the spec: the enum [GQLAuthErrors] of
    [gqlauth.core.types_], whose declaration is missing; these are the five
    stable denial codes. *)
Inductive GQLAuthErrors : Type :=
| UNAUTHENTICATED
| NOT_VERIFIED
| NO_SUFFICIENT_PERMISSIONS
| INVALID_TOKEN
| EXPIRED_TOKEN.

Global Instance GQLAuthErrors_eq_dec : EqDecision GQLAuthErrors.
Proof. solve_decision. Defined.

(** Modelled from the spec: the type [GQLAuthError] of
    [gqlauth.core.types_], whose declaration is missing; a denial is a code
    and a message, the message being [None] when the constructor call passes
    none. *)
Record GQLAuthError : Type := mkGQLAuthError {
  code : GQLAuthErrors;
  message : option string;
}.

Global Instance GQLAuthError_eq_dec : EqDecision GQLAuthError.
Proof. solve_decision. Defined.

(** ** Users and the request *)

(** Modelled from the spec: the verification status of an identity, whose
    declaration is missing; the directives read its [verified] flag. *)
Record UserStatus : Type := mkUserStatus {
  verified : bool;
}.

(** A user object as the directives see it.  [is_authenticated] and
    [has_perm] exist on every Django user class, the anonymous one included.
    [status] is the related status row, if any.  Every other attribute
    ([first_name], [USERNAME_FIELD], the field it names, ...) is looked up in
    [attrs]; an object that lacks one raises [AttributeError] on access. *)
Record User : Type := mkUser {
  is_authenticated : bool;
  has_perm : string -> bool;
  status : option UserStatus;
  attrs : gmap string pyval;
}.

(** [user.name] *)
Definition getattr (user : User) (name : string) : outcome pyval :=
  match attrs user !! name with
  | Some v => Returns v
  | None => Raises (AttributeError name)
  end.

(** [getattr(user, name, dflt)]; a [name] that is not a [str] is a
    [TypeError]. *)
Definition getattr_default (user : User) (name : pyval) (dflt : pyval)
  : outcome pyval :=
  match name with
  | PyStr n => Returns (default dflt (attrs user !! n))
  | PyNone => Raises TypeError
  end.

(** What the request context holds under an attribute name. *)
Inductive ctxval : Type :=
| CtxUser (u : User)
| CtxOther (v : pyval).

Record Path : Type := mkPath {
  key : string;
}.

(** [strawberry.types.Info]: the mutable request context, as its attribute
    dictionary, and the path of the field being resolved. *)
Record Info : Type := mkInfo {
  context : gmap string ctxval;
  path : Path;
}.

(** [info.context.user = user] *)
Definition set_context_user (user : User) (info : Info) : Info :=
  {| context := <["user" := CtxUser user]> (context info);
     path := path info |}.

(** ** The monad of a [resolve_permission] body

    A body reads and writes the request's [Info] and may raise; what it wrote
    before raising stays written. *)
Definition M (A : Type) : Type := Info -> outcome A * Info.

Global Instance M_ret : MRet M := fun A a info => (Returns a, info).
Global Instance M_bind : MBind M := fun A B f m info =>
  match m info with
  | (Returns a, info') => f a info'
  | (Raises e, info') => (Raises e, info')
  end.

Definition get_info : M Info := fun info => (Returns info, info).
Definition modify_info (f : Info -> Info) : M unit :=
  fun info => (Returns tt, f info).
Definition raise {A : Type} (e : pyexn) : M A := fun info => (Raises e, info).

(** A call to a collaborator that does not touch [Info]. *)
Definition call {A : Type} (o : outcome A) : M A := fun info => (o, info).

(** The body of a [try:] block, its exception handed to the [except] clauses
    as a value. *)
Definition try_block {A : Type} (m : M A) : M (outcome A) := fun info =>
  match m info with
  | (o, info') => (Returns o, info')
  end.

(** ** The directives *)

Section Directives.

(** The collaborators of [TokenRequired], taken as given:
    [app_settings.JWT_TOKEN_FINDER], which extracts the bearer token from
    the request (a [str], or [None] when there is none);
    [TokenType.from_token], the decoder; [TokenType.get_user_instance],
    which loads the token's user.  Each may raise. *)
Variable JWT_TOKEN_FINDER : Info -> outcome pyval.
Variable TokenType : Type.
Variable from_token : pyval -> outcome TokenType.
Variable get_user_instance : TokenType -> outcome User.

(** [django.utils.translation.gettext], the message catalogue. *)
Variable gettext : string -> string.

(** [TokenRequired.resolve_permission]; the parameter [user] is rebound
    before it is read, [source], [args] and [kwargs] are never read. *)
Definition TokenRequired_resolve_permission (user : User)
  : M (option GQLAuthError) :=
  info ← get_info;
  token ← call (JWT_TOKEN_FINDER info);
  decoded ← try_block (call (from_token token));
  match decoded with
  | Raises PyJWTError =>
      mret (Some (mkGQLAuthError INVALID_TOKEN None))
  | Raises TokenExpired =>
      mret (Some (mkGQLAuthError EXPIRED_TOKEN None))
  | Raises e => raise e
  | Returns token_type =>
      user ← call (get_user_instance token_type);
      modify_info (set_context_user user);;
      mret None
  end.

(** [IsAuthenticated.resolve_permission] *)
Definition IsAuthenticated_resolve_permission (user : User)
  : M (option GQLAuthError) :=
  if negb (is_authenticated user)
  then mret (Some (mkGQLAuthError UNAUTHENTICATED None))
  else mret None.

(** Modelled from the spec: [get_status] of [gqlauth.core.utils], whose
    definition is missing; it yields the identity's verification status, or
    [None] when the identity has none. *)
Definition get_status (user : User) : option UserStatus := status user.

(** [IsVerified.resolve_permission]; a status object is truthy. *)
Definition IsVerified_resolve_permission (user : User)
  : M (option GQLAuthError) :=
  if match get_status user with
     | Some status => verified status
     | None => false
     end
  then mret None
  else mret (Some (mkGQLAuthError NOT_VERIFIED None)).

(** [user.first_name or getattr(user, user.USERNAME_FIELD, None)]: the
    right operand is evaluated only when the left one is falsy. *)
Definition user_display (user : User) : outcome pyval :=
  first_name ← getattr user "first_name";
  if truthy first_name then Returns first_name
  else
    username_field ← getattr user "USERNAME_FIELD";
    getattr_default user username_field PyNone.

(** The f-string of the denial, before translation. *)
Definition insufficient_message (name : pyval) (info : Info) : string :=
  "User " +:+ py_str name +:+ ", has not sufficient permissions for "
  +:+ key (path info).

(** The denial built in the loop body of [HasPermission]. *)
Definition insufficient_permissions (user : User) : M (option GQLAuthError) :=
  name ← call (user_display user);
  info ← get_info;
  mret (Some (mkGQLAuthError NO_SUFFICIENT_PERMISSIONS
                (Some (gettext (insufficient_message name info))))).

(** [HasPermission.resolve_permission], the loop over [self.permissions]. *)
Fixpoint HasPermission_resolve_permission (permissions : list string)
  (user : User) : M (option GQLAuthError) :=
  match permissions with
  | [] => mret None
  | permission :: rest =>
      if negb (has_perm user permission)
      then insufficient_permissions user
      else HasPermission_resolve_permission rest user
  end.

(** The directive classes, [HasPermission] with its configuration. *)
Inductive AuthDirective : Type :=
| TokenRequired
| IsAuthenticated
| IsVerified
| HasPermission (permissions : list string).

(** Dispatch of [directive.resolve_permission(user, source, info, ...)]. *)
Definition resolve_permission (directive : AuthDirective) (user : User)
  : M (option GQLAuthError) :=
  match directive with
  | TokenRequired => TokenRequired_resolve_permission user
  | IsAuthenticated => IsAuthenticated_resolve_permission user
  | IsVerified => IsVerified_resolve_permission user
  | HasPermission permissions =>
      HasPermission_resolve_permission permissions user
  end.

End Directives.

(** ** The token store *)

Module TokenStore.

(** Modelled from the spec: the persisted refresh-token record of the Token
    Store, whose source is missing: the token value, its subject, the
    revocation flag, the creation time and the optional back-reference to
    the record it was rotated from. *)
Record TokenRecord : Type := mkTokenRecord {
  token_value : string;
  subject : string;
  revoked : bool;
  created_at : nat;
  rotated_from : option string;
}.

(** Modelled from the spec: the stateful failures of the store. *)
Inductive StoreError : Type :=
| NotFound
| Revoked
| Expired.

Inductive store_result (A : Type) : Type :=
| Ok (a : A)
| Fails (e : StoreError).

Arguments Ok {A} a.
Arguments Fails {A} e.

Definition mark_revoked (r : TokenRecord) : TokenRecord :=
  {| token_value := token_value r;
     subject := subject r;
     revoked := true;
     created_at := created_at r;
     rotated_from := rotated_from r |}.

(** Modelled from the spec: [Store.revoke], whose source is missing.  An
    unknown token string fails with [NotFound]; revoking an already-revoked
    token is a reported failure, not silently ignored; otherwise the record
    is marked revoked. *)
Definition revoke (token_string : string) (store : gmap string TokenRecord)
  : store_result unit * gmap string TokenRecord :=
  match store !! token_string with
  | None => (Fails NotFound, store)
  | Some r =>
      if revoked r then (Fails Revoked, store)
      else (Ok tt, <[token_string := mark_revoked r]> store)
  end.

End TokenStore.

(** ** Mutation handlers *)

(** Modelled from the spec: the failure messages carried by a response's
    [errors]; a store failure is translated into one, SwapEmails names
    SECONDARY_EMAIL_REQUIRED, and a failed password confirmation, for which
    no code is named, is [INVALID_PASSWORD]. *)
Inductive Message : Type :=
| StoreFailure (e : TokenStore.StoreError)
| SECONDARY_EMAIL_REQUIRED
| INVALID_PASSWORD.

(** The [errors] of a response: [None] for null, else a mapping of field to
    message list. *)
Definition non_field_errors (m : Message) : option (gmap string (list Message)) :=
  Some {[ "nonFieldErrors" := [m] ]}.

(** [errors] is populated: not null and not the empty mapping. *)
Definition populated (errors : option (gmap string (list Message))) : bool :=
  match errors with
  | None => false
  | Some m => negb (bool_decide (dom m = ∅))
  end.

Module RevokeToken.

(** Modelled from the spec: the response shape of RevokeToken, whose
    declaration is missing: [success], [errors] and the payload
    [revokePayload] with its [revoked] flag. *)
Record RevokePayload : Type := mkRevokePayload {
  revoked : bool;
}.

Record Output : Type := mkOutput {
  success : bool;
  errors : option (gmap string (list Message));
  revokePayload : option RevokePayload;
}.

(** Modelled from the spec: the RevokeToken handler, whose source is
    missing.  Given a refresh token string it calls [Store.revoke];
    on failure [success] is false, [errors] is populated and the payload is
    absent; on success the payload reports the revocation. *)
Definition resolve_mutation (refresh_token : string)
  (store : gmap string TokenStore.TokenRecord)
  : Output * gmap string TokenStore.TokenRecord :=
  match TokenStore.revoke refresh_token store with
  | (TokenStore.Ok _, store') =>
      ({| success := true;
          errors := None;
          revokePayload := Some {| revoked := true |} |}, store')
  | (TokenStore.Fails e, store') =>
      ({| success := false;
          errors := non_field_errors (StoreFailure e);
          revokePayload := None |}, store')
  end.

End RevokeToken.

Module SwapEmails.

(** Modelled from the spec: the email fields of an identity, kept by the
    persistence layer; [secondary_email] is [None] when no secondary email
    is on record. *)
Record Identity : Type := mkIdentity {
  email : string;
  secondary_email : option string;
}.

(** Modelled from the spec: the response shape of SwapEmails, whose
    declaration is missing: [success] and [errors], no payload. *)
Record Output : Type := mkOutput {
  success : bool;
  errors : option (gmap string (list Message));
}.

Definition failure (m : Message) : Output :=
  {| success := false; errors := non_field_errors m |}.

(** Modelled from the spec: [swap_emails] on an identity with a secondary
    email: the two fields exchange their values. *)
Definition swap_emails (identity : Identity) (secondary : string) : Identity :=
  {| email := secondary; secondary_email := Some (email identity) |}.

Section Handler.

(** The password check of the persistence layer. *)
Variable check_password : Identity -> string -> bool.

(** Modelled from the spec: the SwapEmails handler, whose source is
    missing.  Given the authenticated identity and a password
    confirmation it fails with SECONDARY_EMAIL_REQUIRED if no secondary
    email is on record; else, the password being required, it swaps the
    primary and secondary email fields and returns success. *)
Definition resolve_mutation (identity : Identity) (password : string)
  : Output * Identity :=
  match secondary_email identity with
  | None => (failure SECONDARY_EMAIL_REQUIRED, identity)
  | Some secondary =>
      if check_password identity password
      then ({| success := true; errors := None |},
            swap_emails identity secondary)
      else (failure INVALID_PASSWORD, identity)
  end.

End Handler.

End SwapEmails.

(** ** Sample objects *)

Module Samples.

(** A verified account with a first name, holding one permission. *)
Definition bob : User :=
  {| is_authenticated := true;
     has_perm := fun permission => String.eqb permission "app.view";
     status := Some {| verified := true |};
     attrs := {[ "first_name" := PyStr "bob";
                 "USERNAME_FIELD" := PyStr "username";
                 "username" := PyStr "bobby" ]} |}.

(** Django's [AnonymousUser] under the default backend: not authenticated,
    no permission, no status row, no [first_name]. *)
Definition anonymous : User :=
  {| is_authenticated := false;
     has_perm := fun _ => false;
     status := None;
     attrs := {[ "username" := PyStr ""; "id" := PyNone; "pk" := PyNone ]} |}.

(** A request resolving the field [secret]. *)
Definition info0 : Info :=
  {| context := {[ "request" := CtxOther (PyStr "POST /graphql") ]};
     path := {| key := "secret" |} |}.

(** A finder that reads the token from the context's [authorization]. *)
Definition header_finder (info : Info) : outcome pyval :=
  match context info !! "authorization" with
  | Some (CtxOther v) => Returns v
  | _ => Returns PyNone
  end.

Definition with_token (token : string) (info : Info) : Info :=
  {| context := <["authorization" := CtxOther (PyStr token)]> (context info);
     path := path info |}.

(** A decoder over three token strings: ["good"] decodes to the subject
    bob, ["old"] is expired, everything else is rejected by python-jwt. *)
Definition sample_from_token (token : pyval) : outcome string :=
  match token with
  | PyStr "good" => Returns "bob"
  | PyStr "old" => Raises TokenExpired
  | _ => Raises PyJWTError
  end.

Definition sample_get_user_instance (subject : string) : outcome User :=
  if String.eqb subject "bob" then Returns bob
  else Raises (OtherError "DoesNotExist").

(** No translation active. *)
Definition no_translation (s : string) : string := s.

(** The store after one login: a single live refresh token. *)
Definition store_after_login : gmap string TokenStore.TokenRecord :=
  {[ "rt1" := {| TokenStore.token_value := "rt1";
                 TokenStore.subject := "foo_username";
                 TokenStore.revoked := false;
                 TokenStore.created_at := 0;
                 TokenStore.rotated_from := None |} ]}.

(** The same store once that token is revoked. *)
Definition store_after_revoke : gmap string TokenStore.TokenRecord :=
  {[ "rt1" := {| TokenStore.token_value := "rt1";
                 TokenStore.subject := "foo_username";
                 TokenStore.revoked := true;
                 TokenStore.created_at := 0;
                 TokenStore.rotated_from := None |} ]}.

(** The two accounts of the SwapEmails tests. *)
Definition bar : SwapEmails.Identity :=
  {| SwapEmails.email := "bar@email.com";
     SwapEmails.secondary_email := Some "secondary@email.com" |}.

Definition baa : SwapEmails.Identity :=
  {| SwapEmails.email := "baa@email.com";
     SwapEmails.secondary_email := None |}.

Definition default_password : string := "default-password".

Definition sample_check_password (identity : SwapEmails.Identity)
  (password : string) : bool :=
  String.eqb password default_password.

(** An account with an empty first name, known by its [username]; it holds
    no permission. *)
Definition carol : User :=
  {| is_authenticated := true;
     has_perm := fun _ => false;
     status := Some {| verified := false |};
     attrs := {[ "first_name" := PyStr "";
                 "USERNAME_FIELD" := PyStr "username";
                 "username" := PyStr "carol99" ]} |}.

(** An account of a user model keyed by [email] whose object carries no
    [email] attribute, and no first name either. *)
Definition nameless : User :=
  {| is_authenticated := true;
     has_perm := fun _ => false;
     status := None;
     attrs := {[ "first_name" := PyStr "";
                 "USERNAME_FIELD" := PyStr "email" ]} |}.

(** A decoder that accepts every token string, the string being the
    subject, and rejects a missing token. *)
Definition subject_decoder (token : pyval) : outcome string :=
  match token with
  | PyStr s => Returns s
  | PyNone => Raises PyJWTError
  end.

End Samples.

(** Does the denial's message contain [needle]? *)
Fixpoint occurs (needle hay : string) : bool :=
  String.prefix needle hay ||
  match hay with
  | EmptyString => false
  | String _ rest => occurs needle rest
  end.

Definition mentions (needle : string) (d : GQLAuthError) : bool :=
  match message d with
  | Some text => occurs needle text
  | None => false
  end.

(** * Properties *)

(** ** Frame facts about [set_context_user] *)

Lemma set_context_user_path (u : User) (info : Info) :
  path (set_context_user u info) = path info.
Proof. reflexivity. Qed.

Lemma set_context_user_lookup (u : User) (info : Info) :
  context (set_context_user u info) !! "user" = Some (CtxUser u).
Proof. unfold set_context_user; simpl. apply lookup_insert_eq. Qed.

Lemma set_context_user_other (u : User) (info : Info) (k : string) :
  k ≠ "user" -> context (set_context_user u info) !! k = context info !! k.
Proof.
  intros Hk. unfold set_context_user; simpl.
  apply lookup_insert_ne. congruence.
Qed.

Ltac run_body :=
  unfold mbind, M_bind, mret, M_ret, get_info, call, try_block, raise,
    modify_info; simpl.

Section DirectiveProperties.

Variable JWT_TOKEN_FINDER : Info -> outcome pyval.
Variable TokenType : Type.
Variable from_token : pyval -> outcome TokenType.
Variable get_user_instance : TokenType -> outcome User.
Variable gettext : string -> string.

Local Abbreviation token_required :=
  (TokenRequired_resolve_permission JWT_TOKEN_FINDER TokenType from_token
     get_user_instance).
Local Abbreviation has_permission := (HasPermission_resolve_permission gettext).

(** *** TokenRequired, path by path *)

Lemma TokenRequired_finder_raises user info e :
  JWT_TOKEN_FINDER info = Raises e ->
  token_required user info = (Raises e, info).
Proof.
  intros Hf. unfold TokenRequired_resolve_permission.
  run_body. rewrite Hf. reflexivity.
Qed.

Lemma TokenRequired_decode_raises user info token e :
  JWT_TOKEN_FINDER info = Returns token ->
  from_token token = Raises e ->
  token_required user info =
    (match e with
     | PyJWTError => Returns (Some (mkGQLAuthError INVALID_TOKEN None))
     | TokenExpired => Returns (Some (mkGQLAuthError EXPIRED_TOKEN None))
     | _ => Raises e
     end, info).
Proof.
  intros Hf Hd. unfold TokenRequired_resolve_permission.
  run_body. rewrite Hf, Hd. destruct e; reflexivity.
Qed.

Lemma TokenRequired_user_raises user info token token_type e :
  JWT_TOKEN_FINDER info = Returns token ->
  from_token token = Returns token_type ->
  get_user_instance token_type = Raises e ->
  token_required user info = (Raises e, info).
Proof.
  intros Hf Hd Hu. unfold TokenRequired_resolve_permission.
  run_body. rewrite Hf, Hd. run_body. rewrite Hu. reflexivity.
Qed.

Lemma TokenRequired_passes user info token token_type u :
  JWT_TOKEN_FINDER info = Returns token ->
  from_token token = Returns token_type ->
  get_user_instance token_type = Returns u ->
  token_required user info = (Returns None, set_context_user u info).
Proof.
  intros Hf Hd Hu. unfold TokenRequired_resolve_permission.
  run_body. rewrite Hf, Hd. run_body. rewrite Hu. reflexivity.
Qed.

(** The parameter [user] is dead on entry. *)
Lemma TokenRequired_ignores_user user user' info :
  token_required user info = token_required user' info.
Proof. reflexivity. Qed.

(** *** HasPermission *)

Lemma insufficient_permissions_frame user info :
  snd (insufficient_permissions gettext user info) = info.
Proof.
  unfold insufficient_permissions. run_body.
  destruct (user_display user); reflexivity.
Qed.

Lemma insufficient_permissions_not_pass user info :
  fst (insufficient_permissions gettext user info) <> Returns None.
Proof.
  unfold insufficient_permissions. run_body.
  destruct (user_display user); simpl; congruence.
Qed.

Lemma insufficient_permissions_named user info name :
  user_display user = Returns name ->
  insufficient_permissions gettext user info =
    (Returns (Some (mkGQLAuthError NO_SUFFICIENT_PERMISSIONS
                      (Some (gettext (insufficient_message name info))))),
     info).
Proof.
  intros Hn. unfold insufficient_permissions. run_body.
  rewrite Hn. reflexivity.
Qed.

Lemma HasPermission_all_held permissions user info :
  forallb (has_perm user) permissions = true ->
  has_permission permissions user info = (Returns None, info).
Proof.
  induction permissions as [|p rest IH]; simpl; intros Hall.
  - reflexivity.
  - apply andb_prop in Hall as [Hp Hrest]. rewrite Hp. simpl. auto.
Qed.

Lemma HasPermission_stops_at_first_missing pre p post user info :
  forallb (has_perm user) pre = true ->
  has_perm user p = false ->
  has_permission (pre ++ p :: post) user info =
    insufficient_permissions gettext user info.
Proof.
  induction pre as [|q pre IH]; simpl; intros Hpre Hp.
  - rewrite Hp. reflexivity.
  - apply andb_prop in Hpre as [Hq Hpre]. rewrite Hq. simpl. auto.
Qed.

(** Every list either is held entirely or splits at its first missing
    permission. *)
Lemma first_missing_split (held : string -> bool) (permissions : list string) :
  forallb held permissions = true \/
  exists pre p post,
    permissions = pre ++ p :: post /\
    forallb held pre = true /\ held p = false.
Proof.
  induction permissions as [|q rest IH]; simpl.
  - left; reflexivity.
  - destruct (held q) eqn:Hq; simpl.
    + destruct IH as [Hall | (pre & p & post & -> & Hpre & Hp)].
      * left; assumption.
      * right. exists (q :: pre), p, post. simpl. rewrite Hq. auto.
    + right. exists [], q, rest. auto.
Qed.

Lemma HasPermission_frame permissions user info :
  snd (has_permission permissions user info) = info.
Proof.
  destruct (first_missing_split (has_perm user) permissions)
    as [Hall | (pre & p & post & -> & Hpre & Hp)].
  - rewrite HasPermission_all_held by assumption. reflexivity.
  - rewrite HasPermission_stops_at_first_missing by assumption.
    apply insufficient_permissions_frame.
Qed.

(** *** The claims about the directives *)

(** C1.  For every token the finder hands to [TokenRequired]: when decoding
    raises [PyJWTError] (a malformed or forged token) the directive returns
    the denial INVALID_TOKEN, when it raises [TokenExpired] it returns the
    denial EXPIRED_TOKEN, and a denial returned after a failed decoding
    carries INVALID_TOKEN only for [PyJWTError] and EXPIRED_TOKEN only for
    [TokenExpired]. *)
Theorem TokenRequired_failure_codes user info token e :
  JWT_TOKEN_FINDER info = Returns token ->
  from_token token = Raises e ->
  (e = PyJWTError ->
   fst (TokenRequired_resolve_permission JWT_TOKEN_FINDER TokenType
          from_token get_user_instance user info) =
     Returns (Some (mkGQLAuthError INVALID_TOKEN None))) /\
  (e = TokenExpired ->
   fst (TokenRequired_resolve_permission JWT_TOKEN_FINDER TokenType
          from_token get_user_instance user info) =
     Returns (Some (mkGQLAuthError EXPIRED_TOKEN None))) /\
  (forall d,
     fst (TokenRequired_resolve_permission JWT_TOKEN_FINDER TokenType
            from_token get_user_instance user info) = Returns (Some d) ->
     (code d = INVALID_TOKEN <-> e = PyJWTError) /\
     (code d = EXPIRED_TOKEN <-> e = TokenExpired)).
Proof.
  intros Hf Hd.
  rewrite (TokenRequired_decode_raises user info token e Hf Hd).
  split; [|split].
  - intros ->. reflexivity.
  - intros ->. reflexivity.
  - intros d Hres.
    destruct e; simpl in Hres; try discriminate;
      injection Hres as <-; simpl; split; split; congruence.
Qed.

(** C6.  [IsAuthenticated] returns the denial UNAUTHENTICATED exactly when
    the identity is not authenticated, and [None] exactly when it is. *)
Theorem IsAuthenticated_denies_iff_anonymous user info :
  (fst (IsAuthenticated_resolve_permission user info) =
     Returns (Some (mkGQLAuthError UNAUTHENTICATED None))
   <-> is_authenticated user = false) /\
  (fst (IsAuthenticated_resolve_permission user info) = Returns None
   <-> is_authenticated user = true).
Proof.
  unfold IsAuthenticated_resolve_permission.
  destruct (is_authenticated user); simpl; run_body;
    repeat split; intros; congruence.
Qed.

(** C7.  [IsVerified] returns the denial NOT_VERIFIED exactly when the
    identity's verification status is absent or not verified, and [None]
    exactly when the status exists and is verified. *)
Theorem IsVerified_denies_iff_unverified user info :
  (fst (IsVerified_resolve_permission user info) =
     Returns (Some (mkGQLAuthError NOT_VERIFIED None))
   <-> get_status user = None \/
       exists st, get_status user = Some st /\ verified st = false) /\
  (fst (IsVerified_resolve_permission user info) = Returns None
   <-> exists st, get_status user = Some st /\ verified st = true).
Proof.
  unfold IsVerified_resolve_permission.
  destruct (get_status user) as [st|]; [destruct (verified st) eqn:Hv|];
    simpl; run_body; (split; split); intros Hyp; try congruence; eauto.
  - destruct Hyp as [Hyp | (st' & Hyp & Hv')]; [congruence|].
    injection Hyp as <-. congruence.
  - destruct Hyp as (st' & Hyp & Hv'). injection Hyp as <-. congruence.
  - destruct Hyp as (st' & Hyp & _). congruence.
Qed.

(** C10.  [HasPermission] configured with an empty permission list passes
    every identity, whatever its permissions and attributes, and leaves the
    request untouched; with any list, it fails to pass only when the
    identity lacks one of the listed permissions. *)
Theorem HasPermission_empty_passes user info :
  HasPermission_resolve_permission gettext [] user info = (Returns None, info)
  /\
  forall permissions,
    fst (HasPermission_resolve_permission gettext permissions user info)
      <> Returns None ->
    exists p, In p permissions /\ has_perm user p = false.
Proof.
  split; [reflexivity|].
  intros permissions Hdeny.
  destruct (first_missing_split (has_perm user) permissions)
    as [Hall | (pre & p & post & -> & _ & Hp)].
  - rewrite HasPermission_all_held in Hdeny by assumption.
    exfalso. apply Hdeny. reflexivity.
  - exists p. split; [|assumption].
    apply in_or_app. right. left. reflexivity.
Qed.

(** C2, as amended.  [HasPermission] returns [None] exactly when the identity
    has every listed permission.  Otherwise the outcome is fixed at the first
    permission, in declaration order, that the identity lacks: it is the
    denial built from the identity and the request alone, whatever that
    permission is and whatever follows it in the list; for an identity whose
    display name can be read it is one NO_SUFFICIENT_PERMISSIONS denial whose
    message names the identity and [info.path.key]. *)
Theorem HasPermission_first_missing_decides permissions user info :
  (fst (HasPermission_resolve_permission gettext permissions user info) =
     Returns None
   <-> forallb (has_perm user) permissions = true) /\
  (forall pre p post,
     permissions = pre ++ p :: post ->
     forallb (has_perm user) pre = true ->
     has_perm user p = false ->
     HasPermission_resolve_permission gettext permissions user info =
       insufficient_permissions gettext user info /\
     forall name,
       user_display user = Returns name ->
       HasPermission_resolve_permission gettext permissions user info =
         (Returns (Some (mkGQLAuthError NO_SUFFICIENT_PERMISSIONS
                           (Some (gettext (insufficient_message name info))))),
          info)).
Proof.
  simpl. split.
  - split.
    + intros Hpass.
      destruct (first_missing_split (has_perm user) permissions)
        as [Hall | (pre & p & post & -> & Hpre & Hp)]; [assumption|].
      rewrite HasPermission_stops_at_first_missing in Hpass by assumption.
      exfalso. exact (insufficient_permissions_not_pass user info Hpass).
    + intros Hall. rewrite HasPermission_all_held by assumption. reflexivity.
  - intros pre p post -> Hpre Hp.
    rewrite HasPermission_stops_at_first_missing by assumption.
    split; [reflexivity|].
    intros name Hname. apply insufficient_permissions_named. assumption.
Qed.

(** C8.  [IsAuthenticated], [IsVerified] and [HasPermission] hand back the
    request as they received it.  [TokenRequired], when the token decodes
    and its user loads, returns [None] and sets [context.user] to that user,
    the path and every other context attribute staying as they were; on
    every other path it too leaves the request as it was. *)
Theorem only_TokenRequired_writes_context directive user info :
  (directive <> TokenRequired ->
   snd (resolve_permission JWT_TOKEN_FINDER TokenType from_token
          get_user_instance gettext directive user info) = info) /\
  (forall token token_type u,
     JWT_TOKEN_FINDER info = Returns token ->
     from_token token = Returns token_type ->
     get_user_instance token_type = Returns u ->
     resolve_permission JWT_TOKEN_FINDER TokenType from_token
       get_user_instance gettext TokenRequired user info =
     (Returns None, set_context_user u info) /\
     path (set_context_user u info) = path info /\
     context (set_context_user u info) !! "user" = Some (CtxUser u) /\
     forall k : string,
       k <> "user" ->
       context (set_context_user u info) !! k = context info !! k) /\
  (snd (resolve_permission JWT_TOKEN_FINDER TokenType from_token
          get_user_instance gettext TokenRequired user info) = info \/
   exists token token_type u,
     JWT_TOKEN_FINDER info = Returns token /\
     from_token token = Returns token_type /\
     get_user_instance token_type = Returns u).
Proof.
  split; [|split].
  - intros Hd. destruct directive as [| | |permissions]; simpl.
    + congruence.
    + unfold IsAuthenticated_resolve_permission.
      destruct (is_authenticated user); reflexivity.
    + unfold IsVerified_resolve_permission.
      destruct (get_status user) as [st|]; [destruct (verified st)|];
        reflexivity.
    + apply HasPermission_frame.
  - intros token token_type u Hf Hdec Hu.
    split; [exact (TokenRequired_passes user info token token_type u
                     Hf Hdec Hu)|].
    split; [exact (set_context_user_path u info)|].
    split; [exact (set_context_user_lookup u info)|].
    intros k Hk. exact (set_context_user_other u info k Hk).
  - simpl. destruct (JWT_TOKEN_FINDER info) as [token|e] eqn:Hf.
    + destruct (from_token token) as [token_type|e] eqn:Hdec.
      * destruct (get_user_instance token_type) as [u|e] eqn:Hu.
        -- right. exists token, token_type, u. auto.
        -- left.
           rewrite (TokenRequired_user_raises user info token token_type e
                      Hf Hdec Hu).
           reflexivity.
      * left. rewrite (TokenRequired_decode_raises user info token e Hf Hdec).
        reflexivity.
    + left. rewrite (TokenRequired_finder_raises user info e Hf). reflexivity.
Qed.

End DirectiveProperties.

(** ** The mutation handlers *)

Section StoreProperties.

Import TokenStore.

Lemma revoke_unknown token (store : gmap string TokenRecord) :
  store !! token = None ->
  revoke token store = (Fails NotFound, store).
Proof. intros H. unfold revoke. rewrite H. reflexivity. Qed.

Lemma revoke_already_revoked token (store : gmap string TokenRecord) r :
  store !! token = Some r ->
  revoked r = true ->
  revoke token store = (Fails Revoked, store).
Proof. intros H Hr. unfold revoke. rewrite H, Hr. reflexivity. Qed.

Lemma revoke_live token (store : gmap string TokenRecord) r :
  store !! token = Some r ->
  revoked r = false ->
  revoke token store = (Ok tt, <[token := mark_revoked r]> store).
Proof. intros H Hr. unfold revoke. rewrite H, Hr. reflexivity. Qed.

(** Every token string falls under exactly one of the three cases. *)
Lemma revoke_cases token (store : gmap string TokenRecord) :
  store !! token = None \/
  (exists r, store !! token = Some r /\ revoked r = true) \/
  (exists r, store !! token = Some r /\ revoked r = false).
Proof.
  destruct (store !! token) as [r|]; [|left; reflexivity].
  destruct (revoked r) eqn:Hr; eauto.
Qed.

End StoreProperties.

Section RevokeTokenProperties.

Import RevokeToken.

(** C3.  RevokeToken on a token string the store holds unrevoked answers
    [success=true], [revokePayload.revoked=true] and no errors; on an unknown
    or already revoked one it answers [success=false], populated errors and
    no payload.  In every response exactly one of payload and errors is
    present, and a token revoked with success is refused the next time. *)
Theorem RevokeToken_response token store out store' :
  resolve_mutation token store = (out, store') ->
  (forall r,
     store !! token = Some r -> TokenStore.revoked r = false ->
     out = {| success := true;
              errors := None;
              revokePayload := Some {| revoked := true |} |}) /\
  (store !! token = None \/
   (exists r, store !! token = Some r /\ TokenStore.revoked r = true) ->
   success out = false /\
   populated (errors out) = true /\
   revokePayload out = None) /\
  (populated (errors out) = true <-> revokePayload out = None) /\
  (success out = true ->
   success (fst (resolve_mutation token store')) = false).
Proof.
  unfold resolve_mutation.
  destruct (revoke_cases token store)
    as [Hnone | [(r & Hr & Hrev) | (r & Hr & Hlive)]].
  - rewrite (revoke_unknown token store Hnone).
    intros [= <- <-]. simpl. repeat split; intros; congruence.
  - rewrite (revoke_already_revoked token store r Hr Hrev).
    intros [= <- <-]. simpl. repeat split; intros; congruence.
  - rewrite (revoke_live token store r Hr Hlive).
    intros [= <- <-]. simpl.
    split; [reflexivity|]. split.
    + intros [Hnone | (r' & Hr' & Hrev')]; congruence.
    + split; [split; discriminate|]. intros _.
      rewrite (revoke_already_revoked token _ (TokenStore.mark_revoked r)).
      * reflexivity.
      * apply lookup_insert_eq.
      * reflexivity.
Qed.

End RevokeTokenProperties.

Section SwapEmailsProperties.

Import SwapEmails.

Variable check_password : Identity -> string -> bool.

(** C4.  On an identity with primary email [p] and secondary email [s],
    SwapEmails succeeds exactly when the password is confirmed, and a
    successful call answers without errors and leaves the identity with
    primary email [s] and secondary email [p]. *)
Theorem SwapEmails_exchanges identity (p s password : string) out identity' :
  email identity = p ->
  secondary_email identity = Some s ->
  resolve_mutation check_password identity password = (out, identity') ->
  (success out = true <-> check_password identity password = true) /\
  (success out = true ->
   errors out = None /\
   email identity' = s /\
   secondary_email identity' = Some p).
Proof.
  intros Hp Hs. unfold resolve_mutation. rewrite Hs.
  destruct (check_password identity password); intros [= <- <-]; simpl.
  - rewrite Hp. repeat split; reflexivity.
  - repeat split; intros; congruence.
Qed.

(** C5.  On an identity with no secondary email on record SwapEmails fails
    with SECONDARY_EMAIL_REQUIRED, whatever the password, and hands the
    identity back with both email fields as they were. *)
Theorem SwapEmails_requires_secondary identity (password : string)
  out identity' :
  secondary_email identity = None ->
  resolve_mutation check_password identity password = (out, identity') ->
  success out = false /\
  errors out = non_field_errors SECONDARY_EMAIL_REQUIRED /\
  identity' = identity /\
  email identity' = email identity /\
  secondary_email identity' = secondary_email identity.
Proof.
  intros Hs. unfold resolve_mutation. rewrite Hs.
  intros [= <- <-]. repeat split. exact Hs.
Qed.

End SwapEmailsProperties.

(** ** The theorems at sample inputs *)

Section SampleRuns.

Import Samples.

Local Abbreviation run_directive :=
  (resolve_permission header_finder string sample_from_token
     sample_get_user_instance no_translation).

Local Abbreviation run_token_required :=
  (TokenRequired_resolve_permission header_finder string sample_from_token
     sample_get_user_instance).

(** An expired token is answered EXPIRED_TOKEN. *)
Lemma TokenRequired_failure_codes_expired :
  header_finder (with_token "old" info0) = Returns (PyStr "old") /\
  sample_from_token (PyStr "old") = Raises TokenExpired /\
  fst (run_token_required anonymous (with_token "old" info0)) =
    Returns (Some (mkGQLAuthError EXPIRED_TOKEN None)).
Proof.
  split; [vm_compute; reflexivity|]. split; [reflexivity|].
  exact (proj1 (proj2
    (TokenRequired_failure_codes header_finder string sample_from_token
       sample_get_user_instance anonymous (with_token "old" info0)
       (PyStr "old") TokenExpired eq_refl eq_refl)) eq_refl).
Defined.

(** A forged token is answered INVALID_TOKEN, and the request carries no
    user afterwards. *)
Example TokenRequired_forged_token :
  run_token_required anonymous (with_token "forged" info0) =
    (Returns (Some (mkGQLAuthError INVALID_TOKEN None)),
     with_token "forged" info0).
Proof. vm_compute. reflexivity. Qed.

(** bob holds [app.view] and lacks [app.delete]: the denial for the list
    [app.view; app.delete] is the one naming bob and the field. *)
Lemma HasPermission_first_missing_decides_bob :
  ["app.view"; "app.delete"] = ["app.view"] ++ "app.delete" :: [] /\
  forallb (has_perm bob) ["app.view"] = true /\
  has_perm bob "app.delete" = false /\
  user_display bob = Returns (PyStr "bob") /\
  HasPermission_resolve_permission no_translation
    ["app.view"; "app.delete"] bob info0 =
    (Returns (Some (mkGQLAuthError NO_SUFFICIENT_PERMISSIONS
       (Some "User bob, has not sufficient permissions for secret"))),
     info0).
Proof.
  split; [reflexivity|]. split; [reflexivity|]. split; [reflexivity|].
  split; [vm_compute; reflexivity|].
  exact (proj2 (proj2
    (HasPermission_first_missing_decides no_translation
       ["app.view"; "app.delete"] bob info0)
    ["app.view"] "app.delete" [] eq_refl eq_refl eq_refl)
    (PyStr "bob") eq_refl).
Defined.

(** C2 fails as stated: with [P1 = app.view] held and [P2 = app.delete]
    missing, no NO_SUFFICIENT_PERMISSIONS denial that mentions [app.delete]
    is returned; the denial returned names bob and the field only. *)
Lemma HasPermission_denial_omits_permission :
  has_perm bob "app.view" = true /\
  has_perm bob "app.delete" = false /\
  ~ (exists d,
       fst (HasPermission_resolve_permission no_translation
              ["app.view"; "app.delete"] bob info0) = Returns (Some d) /\
       code d = NO_SUFFICIENT_PERMISSIONS /\
       mentions "app.delete" d = true).
Proof.
  split; [reflexivity|]. split; [reflexivity|].
  intros (d & Hd & _ & Hm).
  vm_compute in Hd. injection Hd as <-.
  vm_compute in Hm. discriminate.
Qed.

(** The same denial answers a different missing permission. *)
Example HasPermission_same_denial_for_any_permission :
  HasPermission_resolve_permission no_translation
    ["app.view"; "app.delete"] bob info0 =
  HasPermission_resolve_permission no_translation ["app.edit"] bob info0.
Proof. vm_compute. reflexivity. Qed.

(** On the anonymous user, which has no [first_name], building the denial
    raises; the empty list never gets there. *)
Example HasPermission_anonymous_raises :
  fst (HasPermission_resolve_permission no_translation ["app.view"]
         anonymous info0) =
    Raises (AttributeError "first_name").
Proof. vm_compute. reflexivity. Qed.

(** A decodable token attaches bob to the context and touches nothing else. *)
Lemma only_TokenRequired_writes_context_good_token :
  header_finder (with_token "good" info0) = Returns (PyStr "good") /\
  sample_from_token (PyStr "good") = Returns "bob" /\
  sample_get_user_instance "bob" = Returns bob /\
  run_directive TokenRequired anonymous (with_token "good" info0) =
    (Returns None, set_context_user bob (with_token "good" info0)).
Proof.
  split; [vm_compute; reflexivity|]. split; [reflexivity|].
  split; [reflexivity|].
  exact (proj1 (proj1 (proj2
    (only_TokenRequired_writes_context header_finder string sample_from_token
       sample_get_user_instance no_translation TokenRequired anonymous
       (with_token "good" info0))) (PyStr "good") "bob" bob
       eq_refl eq_refl eq_refl)).
Defined.

(** [test_revoke_token]: the refresh token of a login is revoked, and a
    second attempt on it is refused. *)
Lemma RevokeToken_response_after_login :
  RevokeToken.resolve_mutation "rt1" store_after_login =
    ({| RevokeToken.success := true;
        RevokeToken.errors := None;
        RevokeToken.revokePayload :=
          Some {| RevokeToken.revoked := true |} |},
     store_after_revoke) /\
  RevokeToken.success
    (fst (RevokeToken.resolve_mutation "rt1" store_after_revoke)) = false.
Proof.
  assert (Hrun :
    RevokeToken.resolve_mutation "rt1" store_after_login =
      ({| RevokeToken.success := true;
          RevokeToken.errors := None;
          RevokeToken.revokePayload :=
            Some {| RevokeToken.revoked := true |} |},
       store_after_revoke)) by (vm_compute; reflexivity).
  split; [exact Hrun|].
  exact (proj2 (proj2 (proj2
    (RevokeToken_response "rt1" store_after_login _ _ Hrun))) eq_refl).
Defined.

(** [test_invalid_token]: an unknown token string is refused. *)
Example RevokeToken_invalid_token :
  RevokeToken.resolve_mutation "invalid_token" store_after_login =
    ({| RevokeToken.success := false;
        RevokeToken.errors :=
          non_field_errors (StoreFailure TokenStore.NotFound);
        RevokeToken.revokePayload := None |},
     store_after_login).
Proof. vm_compute. reflexivity. Qed.

(** [test_swap_emails]: bar's two addresses change places. *)
Lemma SwapEmails_exchanges_bar :
  SwapEmails.email bar = "bar@email.com" /\
  SwapEmails.secondary_email bar = Some "secondary@email.com" /\
  SwapEmails.resolve_mutation sample_check_password bar default_password =
    ({| SwapEmails.success := true; SwapEmails.errors := None |},
     SwapEmails.swap_emails bar "secondary@email.com") /\
  SwapEmails.email (SwapEmails.swap_emails bar "secondary@email.com") =
    "secondary@email.com" /\
  SwapEmails.secondary_email
    (SwapEmails.swap_emails bar "secondary@email.com") =
    Some "bar@email.com".
Proof.
  split; [reflexivity|]. split; [reflexivity|]. split; [reflexivity|].
  exact (proj2 (proj2
    (SwapEmails_exchanges sample_check_password bar "bar@email.com"
       "secondary@email.com" default_password _ _
       eq_refl eq_refl eq_refl) eq_refl)).
Defined.

(** [test_swap_emails_without_secondary_email]: baa is refused and keeps
    its address. *)
Lemma SwapEmails_requires_secondary_baa :
  SwapEmails.secondary_email baa = None /\
  SwapEmails.resolve_mutation sample_check_password baa default_password =
    (SwapEmails.failure SECONDARY_EMAIL_REQUIRED, baa) /\
  SwapEmails.success (SwapEmails.failure SECONDARY_EMAIL_REQUIRED) = false /\
  SwapEmails.errors (SwapEmails.failure SECONDARY_EMAIL_REQUIRED) =
    non_field_errors SECONDARY_EMAIL_REQUIRED /\
  baa = baa /\
  SwapEmails.email baa = SwapEmails.email baa /\
  SwapEmails.secondary_email baa = SwapEmails.secondary_email baa.
Proof.
  split; [reflexivity|]. split; [reflexivity|].
  exact (SwapEmails_requires_secondary sample_check_password baa
           default_password _ _ eq_refl eq_refl).
Defined.

End SampleRuns.

(** ** Further properties of the directives *)

Section FurtherDirectiveProperties.

Variable JWT_TOKEN_FINDER : Info -> outcome pyval.
Variable TokenType : Type.
Variable from_token : pyval -> outcome TokenType.
Variable get_user_instance : TokenType -> outcome User.
Variable gettext : string -> string.

Local Abbreviation token_required :=
  (TokenRequired_resolve_permission JWT_TOKEN_FINDER TokenType from_token
     get_user_instance).
Local Abbreviation has_permission := (HasPermission_resolve_permission gettext).

(** *** Helper facts *)

(** The loop amounts to one test over the whole list. *)
Lemma HasPermission_decided permissions user info :
  has_permission permissions user info =
    if forallb (has_perm user) permissions
    then (Returns None, info)
    else insufficient_permissions gettext user info.
Proof.
  induction permissions as [|p rest IH]; simpl.
  - reflexivity.
  - destruct (has_perm user p); simpl; [exact IH | reflexivity].
Qed.

Lemma forallb_incl (held : string -> bool) (l1 l2 : list string) :
  (forall p, In p l1 -> In p l2) ->
  forallb held l2 = true -> forallb held l1 = true.
Proof.
  intros Hincl Hall. apply forallb_forall. intros p Hp.
  exact (proj1 (forallb_forall held l2) Hall p (Hincl p Hp)).
Qed.

Lemma forallb_same_elements (held : string -> bool) (l1 l2 : list string) :
  (forall p, In p l1 <-> In p l2) ->
  forallb held l1 = forallb held l2.
Proof.
  intros Hsame.
  destruct (forallb held l1) eqn:H1, (forallb held l2) eqn:H2;
    try reflexivity.
  - rewrite (forallb_incl held l2 l1) in H2; [discriminate| |assumption].
    intros p Hp. apply Hsame. assumption.
  - rewrite (forallb_incl held l1 l2) in H1; [discriminate| |assumption].
    intros p Hp. apply Hsame. assumption.
Qed.

Lemma insufficient_permissions_cases user info :
  (exists d, insufficient_permissions gettext user info =
               (Returns (Some d), info)) \/
  (exists e, insufficient_permissions gettext user info = (Raises e, info)).
Proof.
  unfold insufficient_permissions. run_body.
  destruct (user_display user) as [name|e]; eauto.
Qed.

Lemma insufficient_permissions_raises user info e :
  fst (insufficient_permissions gettext user info) = Raises e <->
  user_display user = Raises e.
Proof.
  unfold insufficient_permissions. run_body.
  destruct (user_display user) as [name|e']; simpl; split; congruence.
Qed.

Lemma user_display_first_name user n :
  attrs user !! "first_name" = Some (PyStr n) -> n <> "" ->
  user_display user = Returns (PyStr n).
Proof.
  intros Hf Hn. unfold user_display, getattr. rewrite Hf.
  unfold mbind, outcome_bind. simpl.
  destruct (String.eqb_spec n ""); [contradiction|reflexivity].
Qed.

Lemma user_display_fallback user v :
  attrs user !! "first_name" = Some v -> truthy v = false ->
  user_display user =
    match attrs user !! "USERNAME_FIELD" with
    | Some field => getattr_default user field PyNone
    | None => Raises (AttributeError "USERNAME_FIELD")
    end.
Proof.
  intros Hf Hv. unfold user_display, getattr. rewrite Hf.
  unfold mbind, outcome_bind. rewrite Hv.
  destruct (attrs user !! "USERNAME_FIELD"); reflexivity.
Qed.

(** *** TokenRequired *)

(** X1.  The [try] of [TokenRequired] covers the decoder only.  An exception
    raised by the token finder or by [get_user_instance] leaves the directive
    as it is, [PyJWTError] and [TokenExpired] included, and so does any
    other exception of the decoder; none of them becomes a denial, and the
    request is left as it was. *)
Theorem TokenRequired_try_covers_decoder_only user info :
  (forall e,
     JWT_TOKEN_FINDER info = Raises e ->
     TokenRequired_resolve_permission JWT_TOKEN_FINDER TokenType from_token
       get_user_instance user info = (Raises e, info)) /\
  (forall token token_type e,
     JWT_TOKEN_FINDER info = Returns token ->
     from_token token = Returns token_type ->
     get_user_instance token_type = Raises e ->
     TokenRequired_resolve_permission JWT_TOKEN_FINDER TokenType from_token
       get_user_instance user info = (Raises e, info)) /\
  (forall token e,
     JWT_TOKEN_FINDER info = Returns token ->
     from_token token = Raises e ->
     e <> PyJWTError -> e <> TokenExpired ->
     TokenRequired_resolve_permission JWT_TOKEN_FINDER TokenType from_token
       get_user_instance user info = (Raises e, info)).
Proof.
  split; [|split].
  - intros e Hf. unfold TokenRequired_resolve_permission.
    run_body. rewrite Hf. reflexivity.
  - intros token token_type e Hf Hd Hu.
    unfold TokenRequired_resolve_permission.
    run_body. rewrite Hf, Hd. run_body. rewrite Hu. reflexivity.
  - intros token e Hf Hd Hjwt Hexp.
    unfold TokenRequired_resolve_permission.
    run_body. rewrite Hf, Hd. destruct e; try reflexivity; contradiction.
Qed.

(** X2.  [TokenRequired] passes exactly when the finder returns, the token
    decodes and its user loads; nothing about the loaded user is checked. *)
Theorem TokenRequired_passes_iff user info :
  fst (TokenRequired_resolve_permission JWT_TOKEN_FINDER TokenType from_token
         get_user_instance user info) = Returns None
  <-> exists token token_type u,
        JWT_TOKEN_FINDER info = Returns token /\
        from_token token = Returns token_type /\
        get_user_instance token_type = Returns u.
Proof.
  unfold TokenRequired_resolve_permission. run_body.
  destruct (JWT_TOKEN_FINDER info) as [token|e] eqn:Hf; simpl.
  - destruct (from_token token) as [token_type|e] eqn:Hd; simpl.
    + run_body.
      destruct (get_user_instance token_type) as [u|e] eqn:Hu; simpl.
      * split; [|reflexivity]. intros _. exists token, token_type, u. auto.
      * split; [discriminate|].
        intros (t & tt' & u & [= <-] & Hd' & Hu'). congruence.
    + split.
      * destruct e; simpl; discriminate.
      * intros (t & tt' & u & [= <-] & Hd' & _). congruence.
  - split; [discriminate|]. intros (t & tt' & u & Hf' & _). discriminate.
Qed.


(** X4.  A user already attached to the context is replaced, not kept: when
    [TokenRequired] passes on a request that carries the user [u0], the
    request it leaves is the one it would leave had no user been attached.
    In particular a second run with the same token changes nothing. *)
Theorem TokenRequired_replaces_attached_user user info u0 token token_type u :
  JWT_TOKEN_FINDER (set_context_user u0 info) = Returns token ->
  from_token token = Returns token_type ->
  get_user_instance token_type = Returns u ->
  TokenRequired_resolve_permission JWT_TOKEN_FINDER TokenType from_token
    get_user_instance user (set_context_user u0 info) =
    (Returns None, set_context_user u info).
Proof.
  intros Hf Hd Hu. unfold TokenRequired_resolve_permission.
  run_body. rewrite Hf, Hd. run_body. rewrite Hu. simpl.
  unfold set_context_user. simpl. rewrite insert_insert_eq. reflexivity.
Qed.

(** *** HasPermission *)

(** X5.  Two permission lists with the same members give [HasPermission]
    the same outcome, denial and request included: neither the order of the
    permissions nor a repetition can be told from the result. *)
Theorem HasPermission_same_members (l1 l2 : list string) user info :
  (forall p, In p l1 <-> In p l2) ->
  HasPermission_resolve_permission gettext l1 user info =
  HasPermission_resolve_permission gettext l2 user info.
Proof.
  intros Hsame. rewrite !HasPermission_decided.
  rewrite (forallb_same_elements (has_perm user) l1 l2 Hsame). reflexivity.
Qed.

(** X6.  One [HasPermission] over [l1 ++ l2] answers as [HasPermission l1]
    followed, when that passes, by [HasPermission l2]; a refusal or an
    exception of the first is the answer of the whole. *)
Theorem HasPermission_app (l1 l2 : list string) user info :
  HasPermission_resolve_permission gettext (l1 ++ l2) user info =
    match HasPermission_resolve_permission gettext l1 user info with
    | (Returns None, info') =>
        HasPermission_resolve_permission gettext l2 user info'
    | refused => refused
    end.
Proof.
  rewrite (HasPermission_decided (l1 ++ l2)), (HasPermission_decided l1).
  rewrite forallb_app.
  destruct (forallb (has_perm user) l1); simpl.
  - symmetry. apply HasPermission_decided.
  - destruct (insufficient_permissions_cases user info)
      as [(d & ->) | (e & ->)]; reflexivity.
Qed.

(** X7.  Asking for fewer permissions never refuses more: when
    [HasPermission] passes a user for a list, it passes that user for every
    list drawn from it. *)
Theorem HasPermission_fewer_permissions (l1 l2 : list string) user info :
  (forall p, In p l1 -> In p l2) ->
  fst (HasPermission_resolve_permission gettext l2 user info) = Returns None ->
  HasPermission_resolve_permission gettext l1 user info = (Returns None, info).
Proof.
  intros Hincl. rewrite !HasPermission_decided.
  destruct (forallb (has_perm user) l2) eqn:H2.
  - intros _. rewrite (forallb_incl (has_perm user) l1 l2 Hincl H2).
    reflexivity.
  - intros Hpass. exfalso.
    destruct (insufficient_permissions_cases user info)
      as [(d & Hd) | (e & He)].
    + rewrite Hd in Hpass. discriminate.
    + rewrite He in Hpass. discriminate.
Qed.

(** X8.  When the user has a non-empty [first_name], the denial of
    [HasPermission] names that first name; [USERNAME_FIELD] is not read, so
    the denial is built even for a user object without it. *)
Theorem HasPermission_names_first_name permissions user info n :
  forallb (has_perm user) permissions = false ->
  attrs user !! "first_name" = Some (PyStr n) ->
  n <> "" ->
  HasPermission_resolve_permission gettext permissions user info =
    (Returns (Some (mkGQLAuthError NO_SUFFICIENT_PERMISSIONS
                      (Some (gettext (insufficient_message (PyStr n) info))))),
     info).
Proof.
  intros Hmiss Hf Hn. rewrite HasPermission_decided, Hmiss.
  unfold insufficient_permissions. run_body.
  rewrite (user_display_first_name user n Hf Hn). reflexivity.
Qed.

(** X9.  When [first_name] is [None] or empty, the denial names the value
    of the attribute that [USERNAME_FIELD] designates, and when the user
    object has no such attribute it names the text [None]. *)
Theorem HasPermission_names_username_field permissions user info v field :
  forallb (has_perm user) permissions = false ->
  attrs user !! "first_name" = Some v ->
  truthy v = false ->
  attrs user !! "USERNAME_FIELD" = Some (PyStr field) ->
  HasPermission_resolve_permission gettext permissions user info =
    (Returns (Some (mkGQLAuthError NO_SUFFICIENT_PERMISSIONS
       (Some (gettext
                (insufficient_message
                   (default PyNone (attrs user !! field)) info))))),
     info) /\
  (attrs user !! field = None ->
   insufficient_message (default PyNone (attrs user !! field)) info =
     "User None, has not sufficient permissions for " +:+ key (path info)).
Proof.
  intros Hmiss Hf Hv Hu. split.
  - rewrite HasPermission_decided, Hmiss.
    unfold insufficient_permissions. run_body.
    rewrite (user_display_fallback user v Hf Hv), Hu. reflexivity.
  - intros ->. reflexivity.
Qed.

(** X10.  [HasPermission] raises exactly when a listed permission is missing
    and the user's name cannot be read: [AttributeError] for an object
    without [first_name], or with a falsy [first_name] and without
    [USERNAME_FIELD]; [TypeError] when [first_name] is falsy and
    [USERNAME_FIELD] is [None]. *)
Theorem HasPermission_raises_iff permissions user info e :
  fst (HasPermission_resolve_permission gettext permissions user info) =
    Raises e
  <-> forallb (has_perm user) permissions = false /\
      (attrs user !! "first_name" = None /\
       e = AttributeError "first_name" \/
       (exists v, attrs user !! "first_name" = Some v /\ truthy v = false) /\
       (attrs user !! "USERNAME_FIELD" = None /\
        e = AttributeError "USERNAME_FIELD" \/
        attrs user !! "USERNAME_FIELD" = Some PyNone /\ e = TypeError)).
Proof.
  rewrite HasPermission_decided.
  destruct (forallb (has_perm user) permissions); simpl.
  - split; [discriminate|]. intros [Hf _]. discriminate.
  - rewrite insufficient_permissions_raises.
    unfold user_display, getattr, mbind, outcome_bind.
    destruct (attrs user !! "first_name") as [v|] eqn:Hf.
    + destruct (truthy v) eqn:Hv.
      * split; [discriminate|].
        intros [_ [[Hn _] | [(v' & [= <-] & Hv') _]]]; congruence.
      * destruct (attrs user !! "USERNAME_FIELD") as [[|field]|] eqn:Hu;
          simpl.
        -- split.
           ++ intros [= <-]. split; [reflexivity|]. right. split; eauto.
           ++ intros [_ [[Hn _] | [_ [[Hn _] | [_ ->]]]]];
                try discriminate; reflexivity.
        -- split; [discriminate|].
           intros [_ [[Hn _] | [_ [[Hn _] | [Hn _]]]]]; discriminate.
        -- split.
           ++ intros [= <-]. split; [reflexivity|]. right. split; eauto.
           ++ intros [_ [[Hn _] | [_ [[_ ->] | [Hn _]]]]];
                try discriminate; reflexivity.
    + split.
      * intros [= <-]. auto.
      * intros [_ [[_ ->] | [(v' & Hn & _) _]]];
          [reflexivity | discriminate].
Qed.

(** *** All four directives *)


(** X12.  No directive reads the request context for its verdict:
    [TokenRequired] answers the same on two requests for which the finder
    answers the same, whatever user it is handed, and the other three answer
    the same on two requests with the same path, whatever their contexts
    hold; in particular they judge the user they are handed, not the one
    attached to the context. *)
Theorem verdict_ignores_context directive user user' info info' :
  (directive = TokenRequired ->
   JWT_TOKEN_FINDER info = JWT_TOKEN_FINDER info' ->
   fst (resolve_permission JWT_TOKEN_FINDER TokenType from_token
          get_user_instance gettext directive user info) =
   fst (resolve_permission JWT_TOKEN_FINDER TokenType from_token
          get_user_instance gettext directive user' info')) /\
  (directive <> TokenRequired ->
   path info = path info' ->
   fst (resolve_permission JWT_TOKEN_FINDER TokenType from_token
          get_user_instance gettext directive user info) =
   fst (resolve_permission JWT_TOKEN_FINDER TokenType from_token
          get_user_instance gettext directive user info')).
Proof.
  split.
  - intros -> Hf. simpl. unfold TokenRequired_resolve_permission. run_body.
    rewrite <- Hf.
    destruct (JWT_TOKEN_FINDER info) as [token|e]; simpl; [|reflexivity].
    destruct (from_token token) as [token_type|e]; simpl.
    + run_body. destruct (get_user_instance token_type); reflexivity.
    + destruct e; reflexivity.
  - intros Hd Hpath. destruct directive as [| | |permissions]; simpl.
    + congruence.
    + unfold IsAuthenticated_resolve_permission.
      destruct (is_authenticated user); reflexivity.
    + unfold IsVerified_resolve_permission.
      destruct (get_status user) as [st|]; [destruct (verified st)|];
        reflexivity.
    + rewrite !HasPermission_decided.
      destruct (forallb (has_perm user) permissions); simpl; [reflexivity|].
      unfold insufficient_permissions, insufficient_message. run_body.
      destruct (user_display user); simpl; [|reflexivity].
      rewrite Hpath. reflexivity.
Qed.

End FurtherDirectiveProperties.

(** ** The further properties at sample inputs *)

Section FurtherSampleRuns.

Import Samples.

(** A token whose subject has no account: the loader's exception leaves the
    directive, and no user is attached. *)
Lemma TokenRequired_try_covers_decoder_only_ghost :
  header_finder (with_token "ghost" info0) = Returns (PyStr "ghost") /\
  subject_decoder (PyStr "ghost") = Returns "ghost" /\
  sample_get_user_instance "ghost" = Raises (OtherError "DoesNotExist") /\
  TokenRequired_resolve_permission header_finder string subject_decoder
    sample_get_user_instance anonymous (with_token "ghost" info0) =
    (Raises (OtherError "DoesNotExist"), with_token "ghost" info0).
Proof.
  split; [vm_compute; reflexivity|]. split; [reflexivity|].
  split; [reflexivity|].
  exact (proj1 (proj2
    (TokenRequired_try_covers_decoder_only header_finder string
       subject_decoder sample_get_user_instance anonymous
       (with_token "ghost" info0)))
    (PyStr "ghost") "ghost" (OtherError "DoesNotExist")
    eq_refl eq_refl eq_refl).
Defined.

(** A request that already carries the anonymous user ends up carrying bob
    alone. *)
Lemma TokenRequired_replaces_attached_user_anonymous :
  header_finder (set_context_user anonymous (with_token "good" info0)) =
    Returns (PyStr "good") /\
  sample_from_token (PyStr "good") = Returns "bob" /\
  sample_get_user_instance "bob" = Returns bob /\
  TokenRequired_resolve_permission header_finder string sample_from_token
    sample_get_user_instance anonymous
    (set_context_user anonymous (with_token "good" info0)) =
    (Returns None, set_context_user bob (with_token "good" info0)).
Proof.
  split; [vm_compute; reflexivity|]. split; [reflexivity|].
  split; [reflexivity|].
  exact (TokenRequired_replaces_attached_user header_finder string
           sample_from_token sample_get_user_instance anonymous
           (with_token "good" info0) anonymous (PyStr "good") "bob" bob
           eq_refl eq_refl eq_refl).
Defined.

(** Reordering and repeating the permissions changes nothing for bob. *)
Lemma HasPermission_same_members_bob :
  (forall p,
     In p ["app.view"; "app.delete"] <->
     In p ["app.delete"; "app.view"; "app.delete"]) /\
  HasPermission_resolve_permission no_translation
    ["app.view"; "app.delete"] bob info0 =
  HasPermission_resolve_permission no_translation
    ["app.delete"; "app.view"; "app.delete"] bob info0.
Proof.
  assert (Hsame : forall p,
            In p ["app.view"; "app.delete"] <->
            In p ["app.delete"; "app.view"; "app.delete"])
    by (intros p; simpl; tauto).
  split; [exact Hsame|].
  exact (HasPermission_same_members no_translation _ _ bob info0 Hsame).
Defined.

(** bob passes for [app.view] asked twice, hence for [app.view] asked once. *)
Lemma HasPermission_fewer_permissions_bob :
  (forall p, In p ["app.view"] -> In p ["app.view"; "app.view"]) /\
  fst (HasPermission_resolve_permission no_translation
         ["app.view"; "app.view"] bob info0) = Returns None /\
  HasPermission_resolve_permission no_translation ["app.view"] bob info0 =
    (Returns None, info0).
Proof.
  assert (Hincl : forall p,
            In p ["app.view"] -> In p ["app.view"; "app.view"])
    by (intros p; simpl; tauto).
  split; [exact Hincl|]. split; [reflexivity|].
  exact (HasPermission_fewer_permissions no_translation _ _ bob info0
           Hincl eq_refl).
Defined.

(** bob is named by his first name. *)
Lemma HasPermission_names_first_name_bob :
  forallb (has_perm bob) ["app.delete"] = false /\
  attrs bob !! "first_name" = Some (PyStr "bob") /\
  "bob" <> "" /\
  HasPermission_resolve_permission no_translation ["app.delete"] bob info0 =
    (Returns (Some (mkGQLAuthError NO_SUFFICIENT_PERMISSIONS
       (Some "User bob, has not sufficient permissions for secret"))),
     info0).
Proof.
  split; [reflexivity|]. split; [vm_compute; reflexivity|].
  split; [discriminate|].
  exact (HasPermission_names_first_name no_translation ["app.delete"] bob
           info0 "bob" eq_refl eq_refl ltac:(discriminate)).
Defined.

(** An account without first name and without the attribute its model is
    keyed by is named [None]. *)
Lemma HasPermission_names_username_field_nameless :
  forallb (has_perm nameless) ["app.view"] = false /\
  attrs nameless !! "first_name" = Some (PyStr "") /\
  truthy (PyStr "") = false /\
  attrs nameless !! "USERNAME_FIELD" = Some (PyStr "email") /\
  HasPermission_resolve_permission no_translation ["app.view"] nameless
    info0 =
    (Returns (Some (mkGQLAuthError NO_SUFFICIENT_PERMISSIONS
       (Some "User None, has not sufficient permissions for secret"))),
     info0).
Proof.
  split; [reflexivity|]. split; [vm_compute; reflexivity|].
  split; [reflexivity|]. split; [vm_compute; reflexivity|].
  exact (proj1
    (HasPermission_names_username_field no_translation ["app.view"] nameless
       info0 (PyStr "") "email" eq_refl eq_refl eq_refl eq_refl)).
Defined.

(** An account with an empty first name is named by its username. *)
Example HasPermission_names_username_carol :
  HasPermission_resolve_permission no_translation ["app.view"] carol info0 =
    (Returns (Some (mkGQLAuthError NO_SUFFICIENT_PERMISSIONS
       (Some "User carol99, has not sufficient permissions for secret"))),
     info0).
Proof. vm_compute. reflexivity. Qed.


(** carol is refused [app.view] in the same words whether or not bob is
    attached to the request. *)
Lemma verdict_ignores_context_carol :
  HasPermission ["app.view"] <> TokenRequired /\
  path info0 = path (set_context_user bob info0) /\
  fst (resolve_permission header_finder string sample_from_token
         sample_get_user_instance no_translation
         (HasPermission ["app.view"]) carol info0) =
  fst (resolve_permission header_finder string sample_from_token
         sample_get_user_instance no_translation
         (HasPermission ["app.view"]) carol (set_context_user bob info0)).
Proof.
  split; [discriminate|]. split; [reflexivity|].
  exact (proj2
    (verdict_ignores_context header_finder string sample_from_token
       sample_get_user_instance no_translation (HasPermission ["app.view"])
       carol carol info0 (set_context_user bob info0))
    ltac:(discriminate) eq_refl).
Defined.

End FurtherSampleRuns.
